(** * olympia.bandwagon.serializers: collection serializers and validators

    A shallow embedding of [src/olympia/bandwagon/serializers.py] and the
    properties of its validation and serialization rules.

    Text is modelled as [string], read as a sequence of code points below
    256, one per character.
    Python dictionaries whose iteration order decides the outcome (the
    locale mappings walked by [validate_name]) are association lists in
    iteration order; the other dictionaries ([attrs], [data], the output of
    [to_representation]) are [gmap string _].  Exceptions are an explicit
    [outcome]; the task queue and the calls to the spam-check service are
    threaded through a small state monad. *)

From Stdlib Require Import String Ascii ZArith List Bool Lia.
From stdpp Require Import base option list gmap strings fin_maps.

Set Warnings "-register-all".
Local Open Scope string_scope.
Local Open Scope Z_scope.

(** ** Values and exceptions *)

(** What a [TranslationSerializerField] hands to the validators: a flat
    text, or a dict of locale to sub-value.  A value that is neither (a
    [None] left in a dict, on which [value.strip()] raises
    [AttributeError]) is outside this type, and so is the interpreter's
    recursion limit. *)
Inductive trans : Type :=
| Text (s : string)
| Locales (d : list (string * trans)).

(** Attribute values of [attrs] and of model rows. *)
Inductive value : Type :=
| VNone
| VBool (b : bool)
| VInt (z : Z)
| VObj (pk : Z)
| VText (t : trans).

(** Detail of a [ValidationError]: a message, or a dict of field name to
    message. *)
Inductive detail : Type :=
| Message (msg : string)
| FieldErrors (errs : list (string * string)).

Inductive exn : Type :=
| ValidationError (d : detail).

Inductive outcome (A : Type) : Type :=
| Ok (a : A)
| Raise (e : exn).
Arguments Ok {A} a.
Arguments Raise {A} e.

Definition invalid {A : Type} (msg : string) : outcome A :=
  Raise (ValidationError (Message msg)).

(** [{key: f(item) for key, item in d.items()}]: the items are visited in
    order and the first exception ends the comprehension. *)
Definition dict_comprehension {A B : Type} (f : A -> outcome B)
    : list (string * A) -> outcome (list (string * B)) :=
  fix items (l : list (string * A)) : outcome (list (string * B)) :=
    match l with
    | [] => Ok []
    | (key, item) :: l' =>
        match f item with
        | Raise e => Raise e
        | Ok v =>
            match items l' with
            | Raise e => Raise e
            | Ok r => Ok ((key, v) :: r)
            end
        end
    end.

(** Equality of values, as Python's [==] on the rows of a queryset. *)
Fixpoint trans_eqb (a b : trans) {struct a} : bool :=
  match a, b with
  | Text s, Text t => String.eqb s t
  | Locales d, Locales e =>
      (fix entries (l1 l2 : list (string * trans)) {struct l1} : bool :=
         match l1, l2 with
         | [], [] => true
         | (k1, v1) :: r1, (k2, v2) :: r2 =>
             String.eqb k1 k2 && trans_eqb v1 v2 && entries r1 r2
         | _, _ => false
         end) d e
  | _, _ => false
  end.

Definition value_eqb (a b : value) : bool :=
  match a, b with
  | VNone, VNone => true
  | VBool x, VBool y => Bool.eqb x y
  | VInt x, VInt y => Z.eqb x y
  | VObj x, VObj y => Z.eqb x y
  | VText x, VText y => trans_eqb x y
  | _, _ => false
  end.

(** ** Python string helpers *)

(** [unicode.isspace] on the code points below 256: TAB, LF, VT, FF, CR,
    FS, GS, RS, US and SPACE, and NEL (U+0085) and NO-BREAK SPACE
    (U+00A0). *)
Definition isspace (c : ascii) : bool :=
  let n := nat_of_ascii c in
  ((9 <=? n) && (n <=? 13) || (28 <=? n) && (n <=? 32)
   || (n =? 133) || (n =? 160))%nat.

Fixpoint lstrip (s : string) : string :=
  match s with
  | EmptyString => EmptyString
  | String c s' => if isspace c then lstrip s' else s
  end.

Fixpoint rstrip (s : string) : string :=
  match s with
  | EmptyString => EmptyString
  | String c s' =>
      match rstrip s' with
      | EmptyString => if isspace c then EmptyString else String c EmptyString
      | r => String c r
      end
  end.

(** [s.strip()] *)
Definition strip (s : string) : string := rstrip (lstrip s).

Fixpoint all_chars (p : ascii -> bool) (s : string) : bool :=
  match s with
  | EmptyString => true
  | String c s' => p c && all_chars p s'
  end.

(** ** External collaborators *)

(** [olympia.users.models.DeniedName.blocked]: the denylist lookup. *)
Class Denylist := { blocked : string -> bool }.

(** [olympia.amo.utils.clean_nl] and [has_links], and the interpreter's
    rendering of a dict by [six.text_type]. *)
Class TextUtils := {
  clean_nl : string -> string;
  has_links : string -> bool;
  dict_text : list (string * trans) -> string
}.

(** [six.text_type(value)]: a text is itself. *)
Definition text_type `{TextUtils} (value : trans) : string :=
  match value with
  | Text s => s
  | Locales d => dict_text d
  end.

(** Modelled from the spec: [olympia.amo.utils.slug_validator], which is not
    part of the sources at hand, as [validate_slug] calls it (with
    [lower=False]): the value must match the URL-slug grammar, which is
    letters, digits, underscore, hyphen, case preserved; otherwise a
    [ValidationError] with the given message is raised. *)
Definition slug_char (c : ascii) : bool :=
  let n := nat_of_ascii c in
  ((65 <=? n) && (n <=? 90) || (97 <=? n) && (n <=? 122)
   || (48 <=? n) && (n <=? 57) || (n =? 95) || (n =? 45))%nat.

Definition slug_grammar (s : string) : bool :=
  negb (String.eqb s "") && all_chars slug_char s.

Definition slug_validator (s : string) (message : string) : outcome unit :=
  if slug_grammar s then Ok tt else invalid message.

(** ** Rows, requests and the serializer context *)

(** A stored model instance: primary key and attribute values. *)
Record row : Type := { pk : Z; attributes : gmap string value }.

(** [getattr(instance, name)] on a model instance. *)
Definition getattr (r : row) (name : string) : value :=
  default VNone (attributes r !! name).

(** The tables behind [Collection.objects] and [CollectionAddon.objects]. *)
Inductive model : Type := Collection | CollectionAddon.

Definition database : Type := model -> list row.

(** What the code reads of a request: [META] and [user]. *)
Record request : Type := {
  META : gmap string string;
  user : option Z
}.

(** [serializer.context]: only the ['request'] entry is read here. *)
Record context : Type := { ctx_request : option request }.

(** [olympia.api.utils.is_gate_active]: the API gates of a request. *)
Class ApiGates := { is_gate_active : request -> string -> bool }.

(** ** State and exceptions *)

(** A computation over a state [S] that returns or raises; the state
    reached is kept when it raises. *)
Definition M (S A : Type) : Type := S -> outcome A * S.

Definition ret {S A : Type} (a : A) : M S A := fun s => (Ok a, s).

Definition bind {S A B : Type} (m : M S A) (k : A -> M S B) : M S B :=
  fun s =>
    match m s with
    | (Ok a, s') => k a s'
    | (Raise e, s') => (Raise e, s')
    end.

Definition raise {S A : Type} (e : exn) : M S A := fun s => (Raise e, s).

Notation "'bind!' x := m 'in' k" := (bind m (fun x => k))
  (at level 10, x name, m at level 100, k at level 200).
Notation "'exec!' m 'in' k" := (bind m (fun _ => k))
  (at level 10, m at level 100, k at level 200).

(** ** CollectionAkismetSpamValidator *)

(** The spam-check collaborators: [.utils.get_collection_akismet_reports],
    the answer of [report.comment_check()], [django]'s [serialize] and
    [waffle.switch_is_active]. *)
Class SpamService := {
  report : Type;
  get_collection_akismet_reports :
    option Z -> option string -> option string -> option row ->
    gmap string value -> list report;
  is_spam : report -> bool;
  object_serialize : string -> list report -> string;
  switch_is_active : string -> bool
}.

Module CollectionAkismetSpamValidator.

Section Validator.
Context `{SpamService}.

(** The effects of a call: the payloads handed to
    [save_akismet_report.delay], and the reports sent to the service by
    [comment_check], both in order. *)
Record world : Type := {
  task_queue : list string;
  comment_checks : list report
}.

Definition delay (payload : string) : M world unit :=
  fun w => (Ok tt, {| task_queue := task_queue w ++ [payload];
                      comment_checks := comment_checks w |}).

Definition comment_check (r : report) : M world bool :=
  fun w => (Ok (is_spam r),
            {| task_queue := task_queue w;
               comment_checks := comment_checks w ++ [r] |}).

(** [any(report.comment_check() for report in reports)]: the generator
    is consumed up to the first flagged report. *)
Fixpoint any_comment_check (reports : list report) : M world bool :=
  match reports with
  | [] => ret false
  | r :: rs =>
      bind! flagged := comment_check r in
      if flagged then ret true else any_comment_check rs
  end.

(** [{prop: value for prop, value in attrs.items() if prop in self.fields}] *)
Definition submitted (fields : list string) (attrs : gmap string value)
    : gmap string value :=
  filter (fun kv => kv.1 ∈ fields) attrs.

(** The call of [get_collection_akismet_reports], with the user, user
    agent and referrer of the request when there is one. *)
Definition reports_for (instance : option row) (ctx : context)
    (data : gmap string value) : list report :=
  let request := ctx_request ctx in
  let request_meta :=
    match request with Some r => META r | None => ∅ end in
  get_collection_akismet_reports
    (match request with Some r => user r | None => None end)
    (request_meta !! "HTTP_USER_AGENT")
    (request_meta !! "HTTP_REFERER")
    instance data.

(** [__call__(self, attrs)], with [self.fields], [self.serializer.instance]
    and [self.context] as set by [__init__] and [set_context]. *)
Definition call (fields : list string) (instance : option row)
    (ctx : context) (attrs : gmap string value) : M world unit :=
  let data := submitted fields attrs in
  if decide (data = ∅) then ret tt
  else
    let reports := reports_for instance ctx data in
    let raise_if_spam := switch_is_active "akismet-collection-action" in
    bind! flagged := any_comment_check reports in
    if flagged then
      if raise_if_spam then
        exec! delay (object_serialize "json" reports) in
        raise (ValidationError
                 (Message "The text entered has been flagged as spam."))
      else ret tt
    else ret tt.
End Validator.

End CollectionAkismetSpamValidator.

(** ** The framework's validators and serializer base class *)

(** [rest_framework.validators.UniqueTogetherValidator], in the version that
    has [set_context]: the serializers below only declare instances of it,
    its [__call__] is the framework's. *)
Module UniqueTogetherValidator.

Record t : Type := {
  queryset : model;
  message : string;
  fields : list string
}.

Definition missing_message : string := "This field is required.".

Definition enforce_required_fields (v : t) (instance : option row)
    (attrs : gmap string value) : outcome unit :=
  match instance with
  | Some _ => Ok tt
  | None =>
      match filter (fun f => attrs !! f = None) (fields v) with
      | [] => Ok tt
      | missing =>
          Raise (ValidationError
                   (FieldErrors (map (fun f => (f, missing_message)) missing)))
      end
  end.

(** On an update, an unprovided field takes the instance's value. *)
Definition fill_from_instance (v : t) (instance : option row)
    (attrs : gmap string value) : gmap string value :=
  match instance with
  | None => attrs
  | Some i =>
      foldr (fun f a => match a !! f with
                        | Some _ => a
                        | None => <[f := getattr i f]> a
                        end) attrs (fields v)
  end.

Definition filter_queryset (v : t) (attrs : gmap string value)
    (rows : list row) : list row :=
  filter (fun r => forallb (fun f => value_eqb (getattr r f)
                                       (default VNone (attrs !! f)))
                     (fields v) = true) rows.

Definition exclude_current_instance (instance : option row)
    (rows : list row) : list row :=
  match instance with
  | None => rows
  | Some i => filter (fun r => pk r ≠ pk i) rows
  end.

Definition checked_values (v : t) (attrs : gmap string value) : list value :=
  (map_to_list (filter (fun kv => kv.1 ∈ fields v) attrs)).*2.

Definition qs_exists (rows : list row) : bool :=
  match rows with [] => false | _ :: _ => true end.

Definition call (v : t) (db : database) (instance : option row)
    (attrs : gmap string value) : outcome unit :=
  match enforce_required_fields v instance attrs with
  | Raise e => Raise e
  | Ok _ =>
      let attrs := fill_from_instance v instance attrs in
      let rows := filter_queryset v attrs (db (queryset v)) in
      let rows := exclude_current_instance instance rows in
      if negb (existsb (value_eqb VNone) (checked_values v attrs))
         && qs_exists rows
      then invalid (message v)
      else Ok tt
  end.

End UniqueTogetherValidator.

(** The value the candidate has on a field: the submitted one, or, on an
    update, the instance's when the field is not submitted. *)
Definition candidate_value (instance : option row)
    (attrs : gmap string value) (f : string) : option value :=
  match attrs !! f with
  | Some x => Some x
  | None =>
      match instance with
      | Some i => Some (getattr i f)
      | None => None
      end
  end.

(** On each of the fields [fs] the candidate has a value other than [None],
    and the stored row [r] has the same one. *)
Definition same_pair (fs : list string) (instance : option row)
    (attrs : gmap string value) (r : row) : Prop :=
  forall f, f ∈ fs ->
    exists x, candidate_value instance attrs f = Some x
              /\ x ≠ VNone /\ getattr r f = x.

(** The validators a serializer's [Meta] can list. *)
Inductive validator : Type :=
| UniqueTogether (v : UniqueTogetherValidator.t)
| AkismetSpam (fields : list string).

(** A declared serializer field: its name, the model attribute it reads and
    writes, and whether it is left out of the output. *)
Record field : Type := {
  field_name : string;
  source : string;
  write_only : bool
}.

(** How a field renders the attribute of an instance. *)
Class Rendering := { field_to_representation : field -> row -> value }.

Module ModelSerializer.

(** [Serializer.validate]: the hook returns [attrs] as they are. *)
Definition validate (attrs : gmap string value) : gmap string value := attrs.

(** [Serializer.to_representation]: one entry per readable field. *)
Definition to_representation `{Rendering} (declared : list field)
    (instance : row) : gmap string value :=
  foldl (fun out f =>
           if write_only f then out
           else <[field_name f := field_to_representation f instance]> out)
        ∅ declared.

(** [ModelSerializer.update]: [setattr] for every validated item. *)
Definition update (instance : row) (validated_data : gmap string value)
    : row :=
  {| pk := pk instance;
     attributes := validated_data ∪ attributes instance |}.

End ModelSerializer.

(** ** CollectionSerializer: field validators *)

Module CollectionSerializer.

Module Meta.
Definition model : model := Collection.

Definition fields : list string :=
  ["id"; "uuid"; "url"; "addon_count"; "author"; "description";
   "modified"; "name"; "slug"; "public"; "default_locale"].

Definition writeable_fields : list string :=
  ["description"; "name"; "slug"; "public"; "default_locale"].

(** [tuple(set(fields) - set(writeable_fields))]: the elements of the
    difference, in the order the set yields them. *)
Definition read_only_fields : list string :=
  elements ((list_to_set fields : gset string)
              ∖ list_to_set writeable_fields).

Definition unique_together : UniqueTogetherValidator.t :=
  {| UniqueTogetherValidator.queryset := Collection;
     UniqueTogetherValidator.message :=
       "This custom URL is already in use by another one "
       ++ "of your collections.";
     UniqueTogetherValidator.fields := ["slug"; "author"] |}.

Definition validators : list validator :=
  [ UniqueTogether unique_together; AkismetSpam ["name"; "description"] ].
End Meta.

Section Validators.
Context `{Denylist} `{TextUtils}.

Fixpoint validate_name (value : trans) : outcome trans :=
  match value with
  | Locales d =>
      match dict_comprehension validate_name d with
      | Raise e => Raise e
      | Ok r => Ok (Locales r)
      end
  | Text s =>
      if String.eqb (strip s) "" then invalid "Name cannot be empty."
      else if blocked s then invalid "This name cannot be used."
      else Ok value
  end.

Definition validate_description (value : trans) : outcome trans :=
  if has_links (clean_nl (text_type value))
  then invalid "No links are allowed."
  else Ok value.

Definition validate_slug (value : string) : outcome string :=
  match
    slug_validator value
      "The custom URL must consist of letters, numbers, underscores or hyphens."
  with
  | Raise e => Raise e
  | Ok _ =>
      if blocked value then invalid "This custom URL cannot be used."
      else Ok value
  end.
End Validators.

End CollectionSerializer.

(** ** CollectionAddonSerializer *)

Module CollectionAddonSerializer.

(** The declared fields: [addon] (a [SplitField]), [notes] (stored in
    [comments]) and the hidden [collection]. *)
Definition addon : field :=
  {| field_name := "addon"; source := "addon"; write_only := false |}.
Definition notes : field :=
  {| field_name := "notes"; source := "comments"; write_only := false |}.
Definition collection : field :=
  {| field_name := "collection"; source := "collection";
     write_only := true |}.

Definition declared : list field := [addon; notes; collection].

Module Meta.
Definition model : model := CollectionAddon.

Definition fields : list string := ["addon"; "notes"; "collection"].

Definition unique_together : UniqueTogetherValidator.t :=
  {| UniqueTogetherValidator.queryset := CollectionAddon;
     UniqueTogetherValidator.message :=
       "This add-on already belongs to the collection";
     UniqueTogetherValidator.fields := ["addon"; "collection"] |}.

Definition validators : list validator := [ UniqueTogether unique_together ].

Definition writeable_fields : list string := ["notes"].

Definition read_only_fields : list string :=
  elements ((list_to_set fields : gset string)
              ∖ list_to_set writeable_fields).
End Meta.

(** [validate(self, data)], with [self.partial]. *)
Definition validate (partial : bool) (data : gmap string value)
    : gmap string value :=
  let data := if partial then delete "addon" data else data in
  ModelSerializer.validate data.

(** [to_representation(self, instance)], with [self.context]. *)
Definition to_representation `{ApiGates} `{Rendering} (ctx : context)
    (instance : row) : gmap string value :=
  let request := ctx_request ctx in
  let out := ModelSerializer.to_representation declared instance in
  match request with
  | Some r =>
      if is_gate_active r "collections-downloads-shim"
      then <["downloads" := VInt 0]> out
      else out
  | None => out
  end.

(** The framework's [run_validation], once the fields have produced
    [attrs]: the validators of [Meta] run first, on [attrs], which the
    unique-together validator completes in place from the instance on an
    update; [validate] follows, and what it returns is the validated
    data. *)
Definition run_validation (partial : bool) (db : database)
    (instance : option row) (attrs : gmap string value)
    : outcome (gmap string value) :=
  match UniqueTogetherValidator.call Meta.unique_together db instance attrs with
  | Raise e => Raise e
  | Ok _ =>
      Ok (validate partial
            (UniqueTogetherValidator.fill_from_instance Meta.unique_together
               instance attrs))
  end.

End CollectionAddonSerializer.

(** ** CollectionWithAddonsSerializer *)

Module CollectionWithAddonsSerializer.

(** [class Meta(CollectionSerializer.Meta)]: what is not redefined is
    inherited. *)
Module Meta.
Definition model : model := CollectionSerializer.Meta.model.

Definition fields : list string :=
  CollectionSerializer.Meta.fields ++ ["addons"].

Definition writeable_fields : list string :=
  CollectionSerializer.Meta.writeable_fields.

Definition read_only_fields : list string :=
  elements ((list_to_set fields : gset string)
              ∖ list_to_set CollectionSerializer.Meta.writeable_fields).

Definition validators : list validator :=
  CollectionSerializer.Meta.validators.
End Meta.

(** [get_addons(self, obj)]: the [many=True] serializer renders every row
    of the view's add-ons queryset, in order, with
    [CollectionAddonSerializer.to_representation] under [self.context]. *)
Definition get_addons `{ApiGates} `{Rendering} (ctx : context)
    (addons_qs : list row) : list (gmap string value) :=
  map (CollectionAddonSerializer.to_representation ctx) addons_qs.

End CollectionWithAddonsSerializer.

(** ** Induction on nested locale mappings *)

Section TransInd.
Variable P : trans -> Prop.
Hypothesis P_text : forall s, P (Text s).
Hypothesis P_locales : forall d, Forall (fun kv => P kv.2) d -> P (Locales d).

Fixpoint trans_nested_ind (t : trans) : P t :=
  match t with
  | Text s => P_text s
  | Locales d =>
      P_locales d
        ((fix entries (l : list (string * trans))
            : Forall (fun kv => P kv.2) l :=
            match l with
            | [] => @List.Forall_nil _ (fun kv => P kv.2)
            | (k, v) :: l' =>
                @List.Forall_cons _ (fun kv => P kv.2) (k, v) l'
                  (trans_nested_ind v) (entries l')
            end) d)
  end.
End TransInd.

(** The texts held by a translated value, at any depth, in iteration
    order. *)
Fixpoint texts (t : trans) : list string :=
  match t with
  | Text s => [s]
  | Locales d => flat_map (fun kv => texts kv.2) d
  end.

(** ** Sample collaborators and rows *)

(** A denylist with the one name [admin]. *)
Definition sample_denylist : Denylist :=
  {| blocked := fun s => String.eqb s "admin" |}.

(** Links are texts that hold [http], newlines are left as they are, and a
    dict renders as [{...}]. *)
Definition sample_text_utils : TextUtils :=
  {| clean_nl := fun s => s;
     has_links := fun s => match index 0 "http" s with
                           | Some _ => true
                           | None => false
                           end;
     dict_text := fun _ => "{...}" |}.

(** A spam service with one report per submitted flat text, that flags the
    text [buy pills]; the switch is as given. *)
Definition sample_spam_service (switch : bool) : SpamService :=
  {| report := string;
     get_collection_akismet_reports := fun _ _ _ _ data =>
       omap (fun v => match v with
                      | VText (Text s) => Some s
                      | _ => None
                      end) (map_to_list data).*2;
     is_spam := fun r => String.eqb r "buy pills";
     object_serialize := fun fmt rs => fmt ++ ":" ++ String.concat "," rs;
     switch_is_active := fun _ => switch |}.

Definition sample_context : context := {| ctx_request := None |}.

(** API gates of a legacy or a current API version, and fields that render
    the attribute they read. *)
Definition sample_gates (legacy : bool) : ApiGates :=
  {| is_gate_active := fun _ name =>
       legacy && String.eqb name "collections-downloads-shim" |}.

Definition sample_rendering : Rendering :=
  {| field_to_representation := fun f r => getattr r (source f) |}.

Definition request_context : context :=
  {| ctx_request := Some {| META := ∅; user := Some 5 |} |}.

Definition spam_attrs : gmap string value :=
  {[ "name" := VText (Text "buy pills") ]}.

(** Add-on 7 is in collection 3; user 5 has a collection [faves]. *)
Definition addon_row : row :=
  {| pk := 1;
     attributes := {[ "addon" := VObj 7; "collection" := VObj 3 ]} |}.

Definition collection_row : row :=
  {| pk := 2;
     attributes := {[ "slug" := VText (Text "faves"); "author" := VObj 5 ]} |}.

(** User 5 has a second collection, [other], and one without a slug;
    add-on 9 is in collection 3 too. *)
Definition other_collection_row : row :=
  {| pk := 3;
     attributes := {[ "slug" := VText (Text "other"); "author" := VObj 5 ]} |}.

Definition unnamed_collection_row : row :=
  {| pk := 5; attributes := {[ "slug" := VNone; "author" := VObj 5 ]} |}.

Definition other_member_row : row :=
  {| pk := 4;
     attributes := {[ "addon" := VObj 9; "collection" := VObj 3 ]} |}.

Definition full_db : database :=
  fun m => match m with
           | Collection =>
               [collection_row; other_collection_row; unnamed_collection_row]
           | CollectionAddon => [addon_row; other_member_row]
           end.

(** A partial update that submits add-on 9 and a note. *)
Definition patch_attrs : gmap string value :=
  {[ "addon" := VObj 9; "comments" := VText (Text "a note") ]}.

Definition sample_db : database :=
  fun m => match m with
           | Collection => [collection_row]
           | CollectionAddon => [addon_row]
           end.

(** Submissions: only a slug; a sound name; a sound description with a
    flagged name. *)
Definition slug_attrs : gmap string value :=
  {[ "slug" := VText (Text "faves") ]}.

Definition sound_attrs : gmap string value :=
  {[ "name" := VText (Text "My add-ons") ]}.

Definition mixed_attrs : gmap string value :=
  {[ "name" := VText (Text "buy pills");
     "description" := VText (Text "A fine list") ]}.

(** * Properties *)

(** ** Whitespace and [strip] *)

Lemma rstrip_empty (s : string) :
  rstrip s = "" <-> all_chars isspace s = true.
Proof.
  induction s as [|c s IH]; simpl; [tauto|].
  destruct (rstrip s) eqn:Hr.
  - destruct (isspace c); simpl.
    + split; [intros _; apply IH; reflexivity | reflexivity].
    + split; discriminate.
  - split; [discriminate|].
    intros Hall. apply andb_true_iff in Hall as [_ Hs].
    apply IH in Hs. discriminate.
Qed.

Lemma lstrip_head (s : string) :
  lstrip s = "" \/ exists c r, lstrip s = String c r /\ isspace c = false.
Proof.
  induction s as [|c s IH]; simpl; [left; reflexivity|].
  destruct (isspace c) eqn:Hc; [exact IH|].
  right. exists c, s. split; [reflexivity | exact Hc].
Qed.

Lemma lstrip_empty (s : string) :
  lstrip s = "" <-> all_chars isspace s = true.
Proof.
  induction s as [|c s IH]; simpl; [tauto|].
  destruct (isspace c); simpl; [exact IH|].
  split; discriminate.
Qed.

(** [s.strip() == u''] holds exactly for the empty and the whitespace-only
    texts. *)
Lemma strip_empty (s : string) :
  strip s = "" <-> all_chars isspace s = true.
Proof.
  unfold strip. rewrite rstrip_empty.
  destruct (lstrip_head s) as [He | (c & r & He & Hc)].
  - rewrite He. simpl. split; [intros _; apply lstrip_empty, He | reflexivity].
  - rewrite He. simpl. rewrite Hc. simpl. split; [discriminate|].
    intros Hall. apply lstrip_empty in Hall. congruence.
Qed.

Lemma strip_eqb (s : string) :
  String.eqb (strip s) "" = all_chars isspace s.
Proof.
  destruct (String.eqb_spec (strip s) "") as [He | Hne];
    destruct (all_chars isspace s) eqn:Hall; try reflexivity.
  - apply strip_empty in He. congruence.
  - apply strip_empty in Hall. contradiction.
Qed.

(** ** Dict comprehensions *)

Section Comprehension.
Context {A B : Type} (f : A -> outcome B).

Lemma dict_comprehension_ok (l : list (string * A)) (r : list (string * B)) :
  dict_comprehension f l = Ok r <->
  Forall2 (fun kv kv' => kv.1 = kv'.1 /\ f kv.2 = Ok kv'.2) l r.
Proof.
  revert r. induction l as [|[k a] l IH]; intros r; simpl.
  - split.
    + intros [= <-]. constructor.
    + intros Hr. inversion Hr. reflexivity.
  - split.
    + destruct (f a) as [v|e] eqn:Hf; [|discriminate].
      destruct (dict_comprehension f l) as [r'|e] eqn:Hl; [|discriminate].
      intros [= <-]. constructor; [split; [reflexivity | exact Hf]|].
      apply IH. reflexivity.
    + intros Hr. inversion Hr as [|? [k' v'] ? r' [Hk Hv] Hrest]; subst.
      simpl in *. subst k'. rewrite Hv.
      apply IH in Hrest. rewrite Hrest. reflexivity.
Qed.

Lemma dict_comprehension_raise (l : list (string * A)) (e : exn) :
  dict_comprehension f l = Raise e ->
  exists kv, kv ∈ l /\ f kv.2 = Raise e.
Proof.
  induction l as [|[k a] l IH]; simpl; [discriminate|].
  destruct (f a) as [v|e'] eqn:Hf.
  - destruct (dict_comprehension f l) as [r'|e'] eqn:Hl; [discriminate|].
    intros [= <-]. destruct (IH eq_refl) as (kv & Hin & Hkv).
    exists kv. split; [right; exact Hin | exact Hkv].
  - intros [= <-]. exists (k, a). split; [left | exact Hf].
Qed.

Lemma dict_comprehension_fails (l : list (string * A)) :
  Exists (fun kv => exists e, f kv.2 = Raise e) l ->
  exists e, dict_comprehension f l = Raise e.
Proof.
  induction 1 as [[k a] l (e & He) | [k a] l _ IH]; simpl in *.
  - rewrite He. eauto.
  - destruct (f a) as [v|e]; [|eauto].
    destruct IH as (e & ->). eauto.
Qed.
End Comprehension.

Lemma dict_comprehension_same {A : Type} (f : A -> outcome A)
    (d : list (string * A)) :
  dict_comprehension f d = Ok d <-> Forall (fun kv => f kv.2 = Ok kv.2) d.
Proof.
  induction d as [|[k a] d IH]; simpl.
  - split; [constructor | reflexivity].
  - split.
    + destruct (f a) as [v|e] eqn:Hf; [|discriminate].
      destruct (dict_comprehension f d) as [r|e] eqn:Hd; [|discriminate].
      intros [= -> ->]. constructor; [exact Hf | apply IH; reflexivity].
    + intros Hall. inversion Hall as [|? ? Hf Hrest]; subst. simpl in Hf.
      rewrite Hf. apply IH in Hrest. rewrite Hrest. reflexivity.
Qed.

Lemma dict_comprehension_first_failure {A B : Type} (f : A -> outcome B)
    (pre post : list (string * A)) (k : string) (a : A) (e : exn) :
  Forall (fun kv => exists r, f kv.2 = Ok r) pre ->
  f a = Raise e ->
  dict_comprehension f (pre ++ (k, a) :: post) = Raise e.
Proof.
  intros Hpre Hf. induction Hpre as [|[k' a'] pre (r & Hr) _ IH]; simpl.
  - rewrite Hf. reflexivity.
  - simpl in Hr. rewrite Hr, IH. reflexivity.
Qed.

(** ** validate_name, validate_description, validate_slug *)

Section FieldValidators.
Context `{Denylist} `{TextUtils}.
Import CollectionSerializer.

Lemma validate_name_text_cases (s : string) :
  validate_name (Text s) =
    if all_chars isspace s then invalid "Name cannot be empty."
    else if blocked s then invalid "This name cannot be used."
    else Ok (Text s).
Proof. simpl. rewrite strip_eqb. reflexivity. Qed.

Lemma validate_name_locales_cases (d : list (string * trans)) :
  validate_name (Locales d) =
    match dict_comprehension validate_name d with
    | Raise e => Raise e
    | Ok r => Ok (Locales r)
    end.
Proof. reflexivity. Qed.

(** An accepted name comes back as it was given, at every depth. *)
Lemma validate_name_unchanged (value r : trans) :
  validate_name value = Ok r -> r = value.
Proof.
  revert r. induction value as [s | d IH] using trans_nested_ind; intros r.
  - rewrite validate_name_text_cases.
    destruct (all_chars isspace s); [discriminate|].
    destruct (blocked s); [discriminate|]. intros [= <-]. reflexivity.
  - rewrite validate_name_locales_cases.
    destruct (dict_comprehension validate_name d) as [d'|e] eqn:Hd;
      [|discriminate].
    intros [= <-]. f_equal.
    apply dict_comprehension_ok in Hd.
    induction Hd as [|[k v] [k' v'] l l' [Hk Hv] _ IHl]; [reflexivity|].
    simpl in *. inversion IH as [|? ? IHv IHrest]; subst.
    rewrite (IHv _ Hv), (IHl IHrest). reflexivity.
Qed.

(** A name is accepted, as it is, exactly when every text in it is neither
    blank nor denylisted. *)
Lemma validate_name_sound (value : trans) :
  validate_name value = Ok value
  <-> Forall (fun s => all_chars isspace s = false /\ blocked s = false)
        (texts value).
Proof.
  induction value as [s | d IH] using trans_nested_ind.
  - rewrite validate_name_text_cases. simpl. rewrite Forall_singleton.
    unfold invalid.
    destruct (all_chars isspace s);
      [split; [discriminate | intros [? _]; discriminate]|].
    destruct (blocked s);
      [split; [discriminate | intros [_ ?]; discriminate]|].
    split; [intros _; split; reflexivity | reflexivity].
  - rewrite validate_name_locales_cases. simpl.
    rewrite List.Forall_flat_map.
    transitivity (Forall (fun kv => validate_name kv.2 = Ok kv.2) d).
    + rewrite <- dict_comprehension_same.
      destruct (dict_comprehension validate_name d) as [r|e];
        split; try discriminate; congruence.
    + clear -IH. induction IH as [|kv l Hkv _ IHl].
      * split; constructor.
      * split; intros Hall; inversion Hall; subst;
          (constructor; [apply Hkv; assumption | apply IHl; assumption]).
Qed.

(** C7: a flat name is rejected with "Name cannot be empty." exactly when
    it is empty or whitespace-only, with "This name cannot be used."
    exactly when it is not blank and denylisted, and otherwise it is
    returned unchanged. *)
Theorem validate_name_text (s : string) :
  (validate_name (Text s) = invalid "Name cannot be empty."
     <-> all_chars isspace s = true)
  /\ (validate_name (Text s) = invalid "This name cannot be used."
     <-> all_chars isspace s = false /\ blocked s = true)
  /\ (validate_name (Text s) = Ok (Text s)
     <-> all_chars isspace s = false /\ blocked s = false).
Proof.
  rewrite validate_name_text_cases.
  destruct (all_chars isspace s), (blocked s); unfold invalid;
    repeat split; try discriminate; try reflexivity;
    intros; repeat match goal with H : _ /\ _ |- _ => destruct H end;
    discriminate.
Qed.

(** C6: for a mapping of locale to text, [validate_name] validates every
    entry by [validate_name] itself, with the same blank and denylist rules:
    a mapping whose texts are all neither blank nor denylisted is returned
    with the same locale keys and values; the first entry that is a blank
    text makes the call raise "Name cannot be empty.", the first that is a
    denylisted text "This name cannot be used."; one failing entry, flat or
    nested, makes the whole call raise, and what is raised is the failure
    of one of the entries. *)
Theorem validate_name_locales (d : list (string * trans)) :
  (Forall (fun kv => exists v, validate_name kv.2 = Ok v) d ->
     exists d', validate_name (Locales d) = Ok (Locales d')
                /\ d'.*1 = d.*1
                /\ Forall2 (fun kv kv' => validate_name kv.2 = Ok kv'.2) d d')
  /\ (Exists (fun kv => exists e, validate_name kv.2 = Raise e) d ->
        exists e, validate_name (Locales d) = Raise e)
  /\ (forall e, validate_name (Locales d) = Raise e ->
        exists kv, kv ∈ d /\ validate_name kv.2 = Raise e)
  /\ (forall locale s, (locale, Text s) ∈ d ->
        all_chars isspace s = true \/ blocked s = true ->
        exists e, validate_name (Locales d) = Raise e)
  /\ (Forall (fun s => all_chars isspace s = false /\ blocked s = false)
        (texts (Locales d)) ->
      validate_name (Locales d) = Ok (Locales d))
  /\ (forall pre locale s post,
        d = (pre ++ (locale, Text s) :: post)%list ->
        Forall (fun s => all_chars isspace s = false /\ blocked s = false)
          (texts (Locales pre)) ->
        (all_chars isspace s = true ->
           validate_name (Locales d) = invalid "Name cannot be empty.")
        /\ (all_chars isspace s = false -> blocked s = true ->
              validate_name (Locales d) = invalid "This name cannot be used.")).
Proof.
  assert (Hfail : Exists (fun kv => exists e, validate_name kv.2 = Raise e) d ->
                  exists e, validate_name (Locales d) = Raise e).
  { rewrite validate_name_locales_cases.
    intros Hex. apply dict_comprehension_fails in Hex as (e & ->). eauto. }
  split; [|split; [exact Hfail|split; [|split; [|split]]]].
  - rewrite validate_name_locales_cases. intros Hall.
    destruct (dict_comprehension validate_name d) as [d'|e] eqn:Hd.
    + exists d'. split; [reflexivity|].
      apply dict_comprehension_ok in Hd. clear Hall Hfail.
      induction Hd as [|kv kv' l l' [Hk Hv] _ [IHk IHv]];
        [split; [reflexivity | constructor]|].
      split; [rewrite !fmap_cons, IHk, Hk; reflexivity
             | constructor; assumption].
    + apply dict_comprehension_raise in Hd as (kv & Hin & Hkv).
      rewrite Forall_forall in Hall.
      destruct (Hall kv Hin) as (v & Hv). congruence.
  - rewrite validate_name_locales_cases. intros e He.
    destruct (dict_comprehension validate_name d) as [d'|e'] eqn:Hd;
      [discriminate|].
    injection He as <-. apply dict_comprehension_raise. exact Hd.
  - intros locale s Hin Hbad. apply Hfail.
    apply Exists_exists. exists (locale, Text s). split; [exact Hin|].
    unfold snd. rewrite validate_name_text_cases.
    destruct (all_chars isspace s); [unfold invalid; eauto|].
    destruct Hbad as [Hb | Hb]; [discriminate|].
    rewrite Hb. unfold invalid; eauto.
  - apply validate_name_sound.
  - intros pre locale s post -> Hpre.
    assert (Hok : Forall (fun kv => exists r, validate_name kv.2 = Ok r) pre).
    { apply validate_name_sound in Hpre.
      rewrite validate_name_locales_cases in Hpre.
      destruct (dict_comprehension validate_name pre) as [r|e] eqn:Hd;
        [|discriminate].
      apply dict_comprehension_ok in Hd. clear Hpre Hfail.
      induction Hd as [|kv kv' l l' [_ Hv] _ IHl]; [constructor|].
      constructor; [exists (kv'.2); exact Hv | exact IHl]. }
    split.
    + intros Hblank. rewrite validate_name_locales_cases.
      rewrite (dict_comprehension_first_failure validate_name pre post locale
                 (Text s) (ValidationError (Message "Name cannot be empty."))
                 Hok); [reflexivity|].
      rewrite validate_name_text_cases, Hblank. reflexivity.
    + intros Hfull Hdenied. rewrite validate_name_locales_cases.
      rewrite (dict_comprehension_first_failure validate_name pre post locale
                 (Text s)
                 (ValidationError (Message "This name cannot be used."))
                 Hok); [reflexivity|].
      rewrite validate_name_text_cases, Hfull, Hdenied. reflexivity.
Qed.

(** C8: a description is rejected with "No links are allowed." exactly
    when its text, once [clean_nl] has sanitized the newlines, has links;
    otherwise it is accepted. *)
Theorem validate_description_links (value : trans) :
  (validate_description value = invalid "No links are allowed."
     <-> has_links (clean_nl (text_type value)) = true)
  /\ (validate_description value = Ok value
     <-> has_links (clean_nl (text_type value)) = false).
Proof.
  unfold validate_description, invalid.
  destruct (has_links (clean_nl (text_type value)));
    repeat split; (reflexivity || discriminate).
Qed.

(** C10: an accepted description is returned as it was given; the text
    sanitized by [clean_nl] only feeds [has_links]. *)
Theorem validate_description_returns_input (value r : trans) :
  validate_description value = Ok r -> r = value.
Proof.
  unfold validate_description.
  destruct (has_links (clean_nl (text_type value))); [discriminate|].
  intros [= <-]. reflexivity.
Qed.

(** C9: a slug is rejected with the grammar message exactly when it does
    not match the slug grammar (so ['my-collection_1'] passes the grammar
    and ['my collection!'] does not), with "This custom URL cannot be
    used." exactly when it is well-formed and denylisted, and is
    otherwise returned as given. *)
Theorem validate_slug_rules (value : string) :
  (validate_slug value =
     invalid "The custom URL must consist of letters, numbers, underscores or hyphens."
     <-> slug_grammar value = false)
  /\ (validate_slug value = invalid "This custom URL cannot be used."
     <-> slug_grammar value = true /\ blocked value = true)
  /\ (validate_slug value = Ok value
     <-> slug_grammar value = true /\ blocked value = false)
  /\ slug_grammar "my-collection_1" = true
  /\ slug_grammar "my collection!" = false.
Proof.
  unfold validate_slug, slug_validator, invalid.
  destruct (slug_grammar value), (blocked value);
    repeat split; try discriminate; try reflexivity;
    intros; repeat match goal with H : _ /\ _ |- _ => destruct H end;
    discriminate.
Qed.
End FieldValidators.

Lemma validate_description_returns_input_witness :
  exists r,
    @CollectionSerializer.validate_description sample_text_utils
      (Text "A plain description") = Ok r
    /\ r = Text "A plain description".
Proof.
  exists (Text "A plain description"). split; [reflexivity|].
  apply (@validate_description_returns_input sample_text_utils
           (Text "A plain description") (Text "A plain description")).
  reflexivity.
Defined.

(** A mapping with a blank or a denylisted locale is rejected; one with
    sound locales comes back as given. *)
Example validate_name_blank_locale :
  @CollectionSerializer.validate_name sample_denylist
    (Locales [("en-US", Text "My add-ons"); ("fr", Text "  ")])
  = invalid "Name cannot be empty.".
Proof. reflexivity. Qed.

Example validate_name_no_break_space :
  @CollectionSerializer.validate_name sample_denylist
    (Text (String (ascii_of_nat 160) (String (ascii_of_nat 133) " ")))
  = invalid "Name cannot be empty.".
Proof. reflexivity. Qed.

Example validate_name_denied_locale :
  @CollectionSerializer.validate_name sample_denylist
    (Locales [("en-US", Text "My add-ons"); ("fr", Text "admin")])
  = invalid "This name cannot be used.".
Proof. reflexivity. Qed.

Example validate_name_sound_locales :
  @CollectionSerializer.validate_name sample_denylist
    (Locales [("en-US", Text "My add-ons"); ("fr", Text "Mes modules")])
  = Ok (Locales [("en-US", Text "My add-ons"); ("fr", Text "Mes modules")]).
Proof. reflexivity. Qed.

Example validate_description_with_link :
  @CollectionSerializer.validate_description sample_text_utils
    (Text "see http://example.com")
  = invalid "No links are allowed.".
Proof. reflexivity. Qed.

Example validate_slug_accepted :
  @CollectionSerializer.validate_slug sample_denylist "my-collection_1"
  = Ok "my-collection_1".
Proof. reflexivity. Qed.

Example validate_slug_malformed :
  @CollectionSerializer.validate_slug sample_denylist "my collection!"
  = invalid "The custom URL must consist of letters, numbers, underscores or hyphens.".
Proof. reflexivity. Qed.

Example validate_slug_denied :
  @CollectionSerializer.validate_slug sample_denylist "admin"
  = invalid "This custom URL cannot be used.".
Proof. reflexivity. Qed.

(** ** Read-only fields *)

(** [tuple(set(fields) - set(writeable))] lists, once each, the names that
    are in [fields] and not in [writeable]. *)
Lemma set_difference_tuple (fields writeable : list string) :
  let t := elements ((list_to_set fields : gset string) ∖ list_to_set writeable) in
  NoDup t /\ forall x, x ∈ t <-> x ∈ fields /\ x ∉ writeable.
Proof.
  cbv zeta. split; [apply NoDup_elements|].
  intros x. rewrite elem_of_elements, elem_of_difference.
  rewrite !elem_of_list_to_set. reflexivity.
Qed.

(** The three tuples, spelled out. *)
Lemma read_only_fields_contents :
  CollectionSerializer.Meta.read_only_fields
    ≡ₚ ["id"; "uuid"; "url"; "addon_count"; "author"; "modified"]
  /\ CollectionAddonSerializer.Meta.read_only_fields
    ≡ₚ ["addon"; "collection"]
  /\ CollectionWithAddonsSerializer.Meta.read_only_fields
    ≡ₚ ["id"; "uuid"; "url"; "addon_count"; "author"; "modified"; "addons"].
Proof.
  repeat split; vm_compute; apply NoDup_Permutation;
    first [ intros x; rewrite !elem_of_cons, !elem_of_nil; tauto
          | repeat constructor; rewrite ?elem_of_cons, ?elem_of_nil;
            intuition discriminate ].
Qed.

(** C3: in each of the three serializers, [read_only_fields] holds exactly
    the declared fields that are not in the writable list, once each: it is
    the difference of the two declared lists. *)
Theorem read_only_fields_derived :
  (NoDup CollectionSerializer.Meta.read_only_fields
   /\ forall x, x ∈ CollectionSerializer.Meta.read_only_fields
        <-> x ∈ CollectionSerializer.Meta.fields
            /\ x ∉ CollectionSerializer.Meta.writeable_fields)
  /\ (NoDup CollectionAddonSerializer.Meta.read_only_fields
   /\ forall x, x ∈ CollectionAddonSerializer.Meta.read_only_fields
        <-> x ∈ CollectionAddonSerializer.Meta.fields
            /\ x ∉ CollectionAddonSerializer.Meta.writeable_fields)
  /\ (NoDup CollectionWithAddonsSerializer.Meta.read_only_fields
   /\ forall x, x ∈ CollectionWithAddonsSerializer.Meta.read_only_fields
        <-> x ∈ CollectionWithAddonsSerializer.Meta.fields
            /\ x ∉ CollectionWithAddonsSerializer.Meta.writeable_fields).
Proof.
  split; [|split].
  - apply (set_difference_tuple CollectionSerializer.Meta.fields
             CollectionSerializer.Meta.writeable_fields).
  - apply (set_difference_tuple CollectionAddonSerializer.Meta.fields
             CollectionAddonSerializer.Meta.writeable_fields).
  - apply (set_difference_tuple CollectionWithAddonsSerializer.Meta.fields
             CollectionSerializer.Meta.writeable_fields).
Qed.

(** ** CollectionAddonSerializer.validate *)

Lemma getattr_update (instance : row) (validated : gmap string value)
    (k : string) :
  getattr (ModelSerializer.update instance validated) k =
    match validated !! k with
    | Some v => v
    | None => getattr instance k
    end.
Proof.
  unfold getattr, ModelSerializer.update. simpl.
  rewrite lookup_union. destruct (validated !! k) as [v|] eqn:Hv.
  - destruct (attributes instance !! k); reflexivity.
  - destruct (attributes instance !! k); reflexivity.
Qed.

(** [validate] by itself: on a partial update it drops a submitted [addon]
    from the data and keeps every other submitted item, so that an update
    with what it returns leaves the stored [addon] as it was and applies
    the other items. *)
Theorem validate_partial_drops_addon (data : gmap string value)
    (instance : row) :
  let validated := CollectionAddonSerializer.validate true data in
  validated !! "addon" = None
  /\ (forall k, k ≠ "addon" -> validated !! k = data !! k)
  /\ getattr (ModelSerializer.update instance validated) "addon"
     = getattr instance "addon"
  /\ (forall k v, k ≠ "addon" -> data !! k = Some v ->
        getattr (ModelSerializer.update instance validated) k = v).
Proof.
  unfold CollectionAddonSerializer.validate, ModelSerializer.validate.
  cbv zeta.
  split; [apply lookup_delete_eq|].
  split; [intros k Hk; apply lookup_delete_ne; congruence|].
  split.
  - rewrite getattr_update, lookup_delete_eq. reflexivity.
  - intros k v Hk Hv. rewrite getattr_update, lookup_delete_ne by congruence.
    rewrite Hv. reflexivity.
Qed.

(** A full update validates the data as submitted. *)
Lemma validate_full_keeps_data (data : gmap string value) :
  CollectionAddonSerializer.validate false data = data.
Proof. reflexivity. Qed.

(** ** CollectionAddonSerializer.to_representation *)

Section Representation.
Context `{ApiGates} `{Rendering}.

(** The base class only emits declared field names. *)
Lemma to_representation_declared (declared : list field) (instance : row)
    (k : string) :
  k ∉ field_name <$> declared ->
  ModelSerializer.to_representation declared instance !! k = None.
Proof.
  unfold ModelSerializer.to_representation.
  assert (Hgen : forall (acc : gmap string value),
             acc !! k = None -> k ∉ field_name <$> declared ->
             foldl (fun out f =>
                      if write_only f then out
                      else <[field_name f := field_to_representation f instance]> out)
                   acc declared !! k = None).
  { induction declared as [|f l IH]; intros acc Hacc Hk; simpl; [exact Hacc|].
    rewrite fmap_cons, not_elem_of_cons in Hk. destruct Hk as [Hne Hk].
    apply IH; [|exact Hk].
    destruct (write_only f); [exact Hacc|].
    rewrite lookup_insert_ne by congruence. exact Hacc. }
  intros Hk. apply Hgen; [apply lookup_empty | exact Hk].
Qed.

(** C5: the output of [to_representation] has [downloads], with value 0,
    exactly when there is a current request for which the
    ['collections-downloads-shim'] gate is active; otherwise it has no
    [downloads] entry. *)
Theorem to_representation_downloads (ctx : context) (instance : row) :
  let out := CollectionAddonSerializer.to_representation ctx instance in
  let gate_active :=
    exists r, ctx_request ctx = Some r
              /\ is_gate_active r "collections-downloads-shim" = true in
  (out !! "downloads" = Some (VInt 0) <-> gate_active)
  /\ (out !! "downloads" = None <-> ~ gate_active).
Proof.
  cbv zeta. unfold CollectionAddonSerializer.to_representation.
  assert (Hbase : ModelSerializer.to_representation
                    CollectionAddonSerializer.declared instance
                    !! "downloads" = None).
  { apply to_representation_declared. simpl.
    rewrite !not_elem_of_cons. repeat split; try discriminate.
    apply not_elem_of_nil. }
  destruct (ctx_request ctx) as [r|].
  - destruct (is_gate_active r "collections-downloads-shim") eqn:Hg.
    + rewrite lookup_insert_eq. split.
      * split; [intros _; exists r; split; [reflexivity | exact Hg]
               | reflexivity].
      * split; [discriminate|]. intros Hn. exfalso. apply Hn.
        exists r. split; [reflexivity | exact Hg].
    + rewrite Hbase. split.
      * split; [discriminate|]. intros (r' & [= <-] & Hg'). congruence.
      * split; [|reflexivity]. intros _ (r' & [= <-] & Hg'). congruence.
  - rewrite Hbase. split.
    + split; [discriminate|]. intros (r' & Hr & _). discriminate.
    + split; [|reflexivity]. intros _ (r' & Hr & _). discriminate.
Qed.
End Representation.

Example to_representation_legacy :
  @CollectionAddonSerializer.to_representation (sample_gates true)
    sample_rendering request_context addon_row
  = {[ "addon" := VObj 7; "notes" := VNone; "downloads" := VInt 0 ]}.
Proof. vm_compute. reflexivity. Qed.

Example to_representation_current :
  @CollectionAddonSerializer.to_representation (sample_gates false)
    sample_rendering request_context addon_row
  = {[ "addon" := VObj 7; "notes" := VNone ]}.
Proof. vm_compute. reflexivity. Qed.

Example validate_partial_update :
  CollectionAddonSerializer.validate true
    {[ "addon" := VObj 9; "comments" := VText (Text "a note") ]}
  = {[ "comments" := VText (Text "a note") ]}.
Proof. vm_compute. reflexivity. Qed.

(** ** CollectionAkismetSpamValidator *)

Section SpamValidator.
Context `{SpamService}.
Import CollectionAkismetSpamValidator.

(** [any(...)] answers whether some report is flagged, and queues
    nothing. *)
Lemma any_comment_check_spec (reports : list report) (w : world) :
  (any_comment_check reports w).1 = Ok (existsb is_spam reports)
  /\ task_queue (any_comment_check reports w).2 = task_queue w.
Proof.
  revert w. induction reports as [|r rs IH]; intros w; simpl.
  - split; reflexivity.
  - unfold bind, comment_check. simpl.
    destruct (is_spam r); simpl; [split; reflexivity|].
    apply (IH {| task_queue := task_queue w;
                 comment_checks := comment_checks w ++ [r] |}).
Qed.

(** Nothing of the configured fields submitted: the validator does
    nothing. *)
Lemma call_without_data (fields : list string) (instance : option row)
    (ctx : context) (attrs : gmap string value) (w : world) :
  submitted fields attrs = ∅ ->
  call fields instance ctx attrs w = (Ok tt, w).
Proof.
  intros He. unfold call. rewrite He.
  destruct (decide (∅ = ∅)) as [_|Hne]; [reflexivity | contradiction].
Qed.

(** Nothing flagged: no failure and nothing queued, whatever the gate. *)
Lemma call_not_flagged (fields : list string) (instance : option row)
    (ctx : context) (attrs : gmap string value) (w : world) :
  existsb is_spam (reports_for instance ctx (submitted fields attrs)) = false ->
  (call fields instance ctx attrs w).1 = Ok tt
  /\ task_queue (call fields instance ctx attrs w).2 = task_queue w.
Proof.
  intros Hf. unfold call.
  destruct (decide (submitted fields attrs = ∅)); [split; reflexivity|].
  unfold bind.
  destruct (any_comment_check_spec
              (reports_for instance ctx (submitted fields attrs)) w)
    as [Hres Hq].
  destruct (any_comment_check _ w) as [res w'] eqn:Hany. simpl in *.
  subst res. rewrite Hf. split; [reflexivity | exact Hq].
Qed.

(** C1, as the code has it: when the spam-check service flags a
    submission of name or description, the validator queues the
    report-persistence task and raises "The text entered has been flagged
    as spam." if the ['akismet-collection-action'] gate is active; if the
    gate is not active it raises nothing and queues nothing. *)
Theorem spam_validator_gate (fields : list string) (instance : option row)
    (ctx : context) (attrs : gmap string value) (w : world) :
  submitted fields attrs ≠ ∅ ->
  existsb is_spam (reports_for instance ctx (submitted fields attrs)) = true ->
  if switch_is_active "akismet-collection-action"
  then (call fields instance ctx attrs w).1
         = invalid "The text entered has been flagged as spam."
       /\ task_queue (call fields instance ctx attrs w).2
         = (task_queue w
            ++ [object_serialize "json"
                  (reports_for instance ctx (submitted fields attrs))])%list
  else (call fields instance ctx attrs w).1 = Ok tt
       /\ task_queue (call fields instance ctx attrs w).2 = task_queue w.
Proof.
  intros Hdata Hf. unfold call.
  destruct (decide (submitted fields attrs = ∅)); [contradiction|].
  unfold bind.
  destruct (any_comment_check_spec
              (reports_for instance ctx (submitted fields attrs)) w)
    as [Hres Hq].
  destruct (any_comment_check _ w) as [res w'] eqn:Hany. simpl in *.
  subst res. rewrite Hf.
  destruct (switch_is_active "akismet-collection-action"); simpl.
  - rewrite Hq. split; reflexivity.
  - split; [reflexivity | exact Hq].
Qed.
End SpamValidator.

Lemma spam_validator_gate_witness :
  let S := sample_spam_service true in
  let w := {| CollectionAkismetSpamValidator.task_queue := [];
              CollectionAkismetSpamValidator.comment_checks := [] |} in
  (CollectionAkismetSpamValidator.call (H := S) ["name"; "description"] None
     sample_context spam_attrs w).1
    = invalid "The text entered has been flagged as spam."
  /\ CollectionAkismetSpamValidator.task_queue
       (CollectionAkismetSpamValidator.call (H := S) ["name"; "description"]
          None sample_context spam_attrs w).2
     = ["json:buy pills"].
Proof.
  intros S w.
  refine (spam_validator_gate (H := S) ["name"; "description"] None
            sample_context spam_attrs w _ _).
  - intros He. apply (f_equal (fun m => m !! "name")) in He.
    vm_compute in He. discriminate.
  - reflexivity.
Defined.

(** C1 as claimed fails: with the gate off, a flagged submission passes and
    no task is queued. *)
Lemma spam_flagged_gate_off_queues_nothing :
  let S := sample_spam_service false in
  let w := {| CollectionAkismetSpamValidator.task_queue := [];
              CollectionAkismetSpamValidator.comment_checks := [] |} in
  existsb (is_spam (SpamService := S))
    (CollectionAkismetSpamValidator.reports_for (H := S) None sample_context
       (CollectionAkismetSpamValidator.submitted ["name"; "description"]
          spam_attrs)) = true
  /\ switch_is_active (SpamService := S) "akismet-collection-action" = false
  /\ CollectionAkismetSpamValidator.call (H := S) ["name"; "description"] None
       sample_context spam_attrs w
     = (Ok tt,
        {| CollectionAkismetSpamValidator.task_queue := [];
           CollectionAkismetSpamValidator.comment_checks := ["buy pills"] |}).
Proof. vm_compute. repeat split. Qed.

(** ** UniqueTogetherValidator *)

Lemma trans_eqb_refl (t : trans) : trans_eqb t t = true.
Proof.
  induction t as [s | d IH] using trans_nested_ind; simpl.
  - apply String.eqb_refl.
  - induction IH as [|[k v] l Hv _ IHl]; [reflexivity|].
    simpl in Hv. rewrite String.eqb_refl, Hv, IHl. reflexivity.
Qed.

Lemma value_eqb_refl (v : value) : value_eqb v v = true.
Proof.
  destruct v; simpl.
  - reflexivity.
  - apply Bool.eqb_reflx.
  - apply Z.eqb_refl.
  - apply Z.eqb_refl.
  - apply trans_eqb_refl.
Qed.

(** What the validator's fields hold once the validator has completed
    [attrs] from the instance. *)
Lemma fill_from_instance_lookup (v : UniqueTogetherValidator.t)
    (instance : option row) (attrs : gmap string value) (f : string) :
  UniqueTogetherValidator.fill_from_instance v instance attrs !! f
  = if decide (f ∈ UniqueTogetherValidator.fields v)
    then candidate_value instance attrs f
    else attrs !! f.
Proof.
  unfold UniqueTogetherValidator.fill_from_instance, candidate_value.
  destruct instance as [i|].
  - induction (UniqueTogetherValidator.fields v) as [|g fs IH]; simpl.
    + reflexivity.
    + set (a := foldr _ attrs fs) in *.
      assert (Hstep : (match a !! g with
                       | Some _ => a
                       | None => <[g := getattr i g]> a
                       end) !! f
                      = if decide (f = g)
                        then match a !! g with
                             | Some y => Some y
                             | None => Some (getattr i g)
                             end
                        else a !! f).
      { destruct (decide (f = g)) as [-> | Hne];
          destruct (a !! g) eqn:Hg; try reflexivity.
        - exact Hg.
        - apply lookup_insert_eq.
        - apply lookup_insert_ne. congruence. }
      rewrite Hstep. clear Hstep.
      destruct (decide (f = g)) as [-> | Hne].
      * rewrite decide_True by left. rewrite IH.
        destruct (decide (g ∈ fs)); destruct (attrs !! g); reflexivity.
      * rewrite IH. destruct (decide (f ∈ fs)) as [Hin | Hnin].
        -- rewrite decide_True by (right; exact Hin). reflexivity.
        -- rewrite decide_False; [reflexivity|].
           rewrite not_elem_of_cons. split; assumption.
  - destruct (decide (f ∈ UniqueTogetherValidator.fields v)); [|reflexivity].
    destruct (attrs !! f); reflexivity.
Qed.

Section UniqueTogether.
Import UniqueTogetherValidator.

Variables (v : t) (db : database) (instance : option row)
          (attrs : gmap string value) (r : row).
Hypothesis Hstored : r ∈ db (queryset v).
Hypothesis Hother : forall i, instance = Some i -> pk r ≠ pk i.
Hypothesis Hsame : same_pair (fields v) instance attrs r.

Lemma enforce_required_fields_given :
  enforce_required_fields v instance attrs = Ok tt.
Proof.
  unfold enforce_required_fields.
  destruct instance as [i|] eqn:Hinst; [reflexivity|].
  destruct (filter (fun f => attrs !! f = None) (fields v))
    as [|f l] eqn:Hfl; [reflexivity|].
  assert (Hf : f ∈ filter (fun f => attrs !! f = None) (fields v))
    by (rewrite Hfl; left).
  apply list_elem_of_filter in Hf as [Hnone Hf].
  destruct (Hsame f Hf) as (x & Hx & _).
  unfold candidate_value in Hx. rewrite Hnone in Hx. discriminate.
Qed.

Lemma filled_given (f : string) :
  f ∈ fields v ->
  exists x, fill_from_instance v instance attrs !! f = Some x
            /\ x ≠ VNone /\ getattr r f = x.
Proof.
  intros Hf. rewrite fill_from_instance_lookup, decide_True by exact Hf.
  apply Hsame. exact Hf.
Qed.

Lemma checked_values_given :
  existsb (value_eqb VNone)
    (checked_values v (fill_from_instance v instance attrs)) = false.
Proof.
  apply not_true_is_false. intros Hex.
  apply existsb_exists in Hex as (x & Hin & Hx).
  apply list_elem_of_In in Hin. unfold checked_values in Hin.
  apply list_elem_of_fmap in Hin as ([k y] & -> & Hky).
  apply elem_of_map_to_list, map_lookup_filter_Some in Hky as [Hk Hf].
  simpl in Hf, Hx. destruct (filled_given k Hf) as (x & Hx' & Hne & _).
  assert (y = x) as -> by congruence.
  destruct x; [contradiction | discriminate ..].
Qed.

Lemma row_stays_in_queryset :
  r ∈ exclude_current_instance instance
        (filter_queryset v (fill_from_instance v instance attrs)
           (db (queryset v))).
Proof.
  assert (Hmatch : r ∈ filter_queryset v (fill_from_instance v instance attrs)
                         (db (queryset v))).
  { unfold filter_queryset. apply list_elem_of_filter. split; [|exact Hstored].
    apply forallb_forall. intros f Hf. apply list_elem_of_In in Hf.
    destruct (filled_given f Hf) as (x & -> & _ & ->). apply value_eqb_refl. }
  unfold exclude_current_instance. destruct instance as [i|]; [|exact Hmatch].
  apply list_elem_of_filter. split; [apply Hother; reflexivity | exact Hmatch].
Qed.

(** A stored row other than the instance under update that has the
    candidate's values on the validator's fields makes the validator
    raise its message. *)
Lemma unique_together_conflict :
  call v db instance attrs = invalid (message v).
Proof.
  unfold call. rewrite enforce_required_fields_given.
  rewrite checked_values_given. simpl.
  pose proof row_stays_in_queryset as Hin.
  destruct (exclude_current_instance instance
              (filter_queryset v (fill_from_instance v instance attrs)
                 (db (queryset v)))) as [|r' rows].
  - apply elem_of_nil in Hin. contradiction.
  - reflexivity.
Qed.
End UniqueTogether.

(** C2, as the code has it: take as the candidate's (slug, author) pair, or
    (addon, collection) pair, the submitted values, and on an update the
    instance's for what is not submitted.  When neither value is None and a
    stored row other than the one being updated has the same pair,
    validation fails, writing nothing, with the message of the declared
    validator; for an add-on already in the collection that message is
    "This add-on already belongs to the collection", without a final full
    stop. *)
Theorem unique_together_rejects_duplicates (db : database)
    (instance : option row) (attrs : gmap string value) (r : row) :
  (forall i, instance = Some i -> pk r ≠ pk i) ->
  (UniqueTogether CollectionSerializer.Meta.unique_together
     ∈ CollectionSerializer.Meta.validators
   /\ (r ∈ db Collection ->
       same_pair ["slug"; "author"] instance attrs r ->
       UniqueTogetherValidator.call CollectionSerializer.Meta.unique_together
         db instance attrs
       = invalid "This custom URL is already in use by another one of your collections."))
  /\ (UniqueTogether CollectionAddonSerializer.Meta.unique_together
        ∈ CollectionAddonSerializer.Meta.validators
      /\ (r ∈ db CollectionAddon ->
          same_pair ["addon"; "collection"] instance attrs r ->
          UniqueTogetherValidator.call
            CollectionAddonSerializer.Meta.unique_together db instance attrs
          = invalid "This add-on already belongs to the collection")).
Proof.
  intros Hother. split; (split; [left|]); intros Hin Hsame.
  - apply (unique_together_conflict CollectionSerializer.Meta.unique_together
             db instance attrs r Hin Hother Hsame).
  - apply (unique_together_conflict
             CollectionAddonSerializer.Meta.unique_together
             db instance attrs r Hin Hother Hsame).
Qed.

(** A partial update of collection [other] that submits only the slug
    [faves], which the same author already uses. *)
Lemma unique_together_rejects_duplicates_witness :
  UniqueTogetherValidator.call CollectionSerializer.Meta.unique_together
    full_db (Some other_collection_row) {[ "slug" := VText (Text "faves") ]}
  = invalid "This custom URL is already in use by another one of your collections.".
Proof.
  refine (proj2 (proj1 (unique_together_rejects_duplicates full_db
                          (Some other_collection_row)
                          {[ "slug" := VText (Text "faves") ]}
                          collection_row _)) _ _).
  - intros i [= <-]. discriminate.
  - left.
  - intros f Hf. rewrite !elem_of_cons, elem_of_nil in Hf.
    destruct Hf as [-> | [-> | []]].
    + exists (VText (Text "faves")). repeat split; discriminate.
    + exists (VObj 5). repeat split; discriminate.
Defined.

(** C2 as claimed fails: adding add-on 7 to collection 3 a second time is
    rejected, but not with a message that ends in a full stop; an update of
    a collection that keeps its own (slug, author) pair, which is in the
    stored rows, passes; and so does a new collection without a slug when
    the author already has one without a slug. *)
Lemma unique_together_message_own_row_and_none :
  addon_row ∈ sample_db CollectionAddon
  /\ UniqueTogetherValidator.call
       CollectionAddonSerializer.Meta.unique_together sample_db None
       (attributes addon_row)
     ≠ invalid "This add-on already belongs to the collection."
  /\ collection_row ∈ sample_db Collection
  /\ UniqueTogetherValidator.call CollectionSerializer.Meta.unique_together
       sample_db (Some collection_row) (attributes collection_row)
     = Ok tt
  /\ unnamed_collection_row ∈ full_db Collection
  /\ UniqueTogetherValidator.call CollectionSerializer.Meta.unique_together
       full_db None (attributes unnamed_collection_row)
     = Ok tt.
Proof.
  split; [left|]. split; [vm_compute; discriminate|].
  split; [left|]. split; [vm_compute; reflexivity|].
  split; [right; right; left|]. vm_compute. reflexivity.
Qed.

(** ** Partial updates through run_validation *)

(** C4, where the code departs from it: the member (add-on 7, collection 3)
    is updated partially with add-on 9, already a member of collection 3,
    and a note.  [validate] alone drops the add-on and keeps the note, but
    the unique-together validator runs before it, on the submitted add-on,
    and rejects the update: the add-on is not silently dropped and the note
    is not applied. *)
Theorem partial_update_rejected_for_member_addon :
  CollectionAddonSerializer.validate true patch_attrs
    = {[ "comments" := VText (Text "a note") ]}
  /\ CollectionAddonSerializer.run_validation true full_db (Some addon_row)
       patch_attrs
     = invalid "This add-on already belongs to the collection".
Proof. split; vm_compute; reflexivity. Qed.

(** * Further properties *)

(** ** The spam validator: what it reads, checks and queues *)

Section SpamValidatorMore.
Context `{SpamService}.
Import CollectionAkismetSpamValidator.

Lemma submitted_lookup (fields : list string) (attrs : gmap string value)
    (k : string) :
  submitted fields attrs !! k = if decide (k ∈ fields) then attrs !! k else None.
Proof.
  unfold submitted. destruct (decide (k ∈ fields)) as [Hin | Hnin].
  - destruct (attrs !! k) as [x|] eqn:Hk.
    + apply map_lookup_filter_Some. split; [exact Hk | exact Hin].
    + apply map_lookup_filter_None. left. exact Hk.
  - apply map_lookup_filter_None. right. intros x _. exact Hnin.
Qed.

(** The reports sent to the service by [any(...)]: all of them when none is
    flagged, and otherwise those up to the first flagged one. *)
Lemma any_comment_check_checked (reports : list report) (w : world) :
  (existsb is_spam reports = false ->
     comment_checks (any_comment_check reports w).2
     = (comment_checks w ++ reports)%list)
  /\ (forall pre r post,
        reports = (pre ++ r :: post)%list ->
        Forall (fun x => is_spam x = false) pre -> is_spam r = true ->
        comment_checks (any_comment_check reports w).2
        = (comment_checks w ++ pre ++ [r])%list).
Proof.
  revert w. induction reports as [|x xs IH]; intros w.
  - split.
    + intros _. simpl. rewrite app_nil_r. reflexivity.
    + intros pre r post Heq. destruct pre; discriminate.
  - simpl. unfold bind, comment_check. simpl.
    destruct (is_spam x) eqn:Hx; simpl.
    + split; [discriminate|].
      intros pre r post Heq Hpre Hr. destruct pre as [|p pre].
      * injection Heq as -> _. reflexivity.
      * injection Heq as -> _. inversion Hpre; subst. congruence.
    + destruct (IH {| task_queue := task_queue w;
                      comment_checks := comment_checks w ++ [x] |})
        as [IHnone IHsome]. simpl in *.
      split.
      * intros Hex. rewrite (IHnone Hex), <- app_assoc. reflexivity.
      * intros pre r post Heq Hpre Hr. destruct pre as [|p pre].
        -- injection Heq as -> _. congruence.
        -- injection Heq as -> ->. inversion Hpre; subst.
           rewrite (IHsome pre r post eq_refl) by assumption.
           rewrite <- app_assoc. reflexivity.
Qed.

(** X1: when the submission has none of the validator's fields, the call
    returns at once: no report is sent to the service, nothing is queued and
    nothing is raised, whatever the gate and the service would say. *)
Theorem call_ignores_other_fields (fields : list string)
    (instance : option row) (ctx : context) (attrs : gmap string value)
    (w : world) :
  (forall k, k ∈ fields -> attrs !! k = None) ->
  call fields instance ctx attrs w = (Ok tt, w).
Proof.
  intros Hnone. unfold call.
  destruct (decide (submitted fields attrs = ∅)) as [_ | Hne]; [reflexivity|].
  exfalso. apply Hne. apply map_eq. intros k.
  rewrite submitted_lookup, lookup_empty.
  destruct (decide (k ∈ fields)); [apply Hnone; assumption | reflexivity].
Qed.

(** X2: when no report is flagged, the call raises nothing and queues
    nothing, whatever the gate, and every report has been sent to the
    service, in order. *)
Theorem call_nothing_flagged (fields : list string) (instance : option row)
    (ctx : context) (attrs : gmap string value) (w : world) :
  submitted fields attrs ≠ ∅ ->
  existsb is_spam (reports_for instance ctx (submitted fields attrs)) = false ->
  (call fields instance ctx attrs w).1 = Ok tt
  /\ task_queue (call fields instance ctx attrs w).2 = task_queue w
  /\ comment_checks (call fields instance ctx attrs w).2
     = (comment_checks w
        ++ reports_for instance ctx (submitted fields attrs))%list.
Proof.
  intros Hdata Hf. unfold call.
  destruct (decide (submitted fields attrs = ∅)); [contradiction|].
  unfold bind.
  set (reports := reports_for instance ctx (submitted fields attrs)) in *.
  destruct (any_comment_check_spec reports w) as [Hres Hq].
  destruct (any_comment_check_checked reports w) as [Hall _].
  specialize (Hall Hf).
  destruct (any_comment_check reports w) as [res w'] eqn:Hany. simpl in *.
  subst res. rewrite Hf. simpl. repeat split; assumption.
Qed.

(** X3: the reports are sent to the service one by one up to the first
    flagged one; the reports after it are never sent, with the gate on or
    off. *)
Theorem call_stops_at_first_flagged (fields : list string)
    (instance : option row) (ctx : context) (attrs : gmap string value)
    (w : world) (pre post : list report) (r : report) :
  submitted fields attrs ≠ ∅ ->
  reports_for instance ctx (submitted fields attrs) = (pre ++ r :: post)%list ->
  Forall (fun x => is_spam x = false) pre ->
  is_spam r = true ->
  comment_checks (call fields instance ctx attrs w).2
  = (comment_checks w ++ pre ++ [r])%list.
Proof.
  intros Hdata Hsplit Hpre Hr. unfold call.
  destruct (decide (submitted fields attrs = ∅)); [contradiction|].
  unfold bind.
  set (reports := reports_for instance ctx (submitted fields attrs)) in *.
  destruct (any_comment_check_spec reports w) as [Hres _].
  destruct (any_comment_check_checked reports w) as [_ Hsome].
  specialize (Hsome pre r post Hsplit Hpre Hr).
  destruct (any_comment_check reports w) as [res w'] eqn:Hany. simpl in *.
  subst res.
  destruct (existsb is_spam reports); simpl; [|exact Hsome].
  destruct (switch_is_active "akismet-collection-action"); simpl; exact Hsome.
Qed.

(** X4: the call depends on the submission only through the validator's
    fields: two submissions that agree on them behave alike. *)
Theorem call_reads_configured_fields (fields : list string)
    (instance : option row) (ctx : context)
    (attrs attrs' : gmap string value) (w : world) :
  (forall k, k ∈ fields -> attrs !! k = attrs' !! k) ->
  call fields instance ctx attrs w = call fields instance ctx attrs' w.
Proof.
  intros Hagree.
  assert (Hsub : submitted fields attrs = submitted fields attrs').
  { apply map_eq. intros k. rewrite !submitted_lookup.
    destruct (decide (k ∈ fields)); [apply Hagree; assumption | reflexivity]. }
  unfold call. rewrite Hsub. reflexivity.
Qed.

(** X5: the call raises nothing but "The text entered has been flagged as
    spam.", and only with the gate active and a flagged report; the task
    queue grows exactly when it raises, by the one payload that holds all
    the reports. *)
Theorem call_outcomes (fields : list string) (instance : option row)
    (ctx : context) (attrs : gmap string value) (w : world) :
  let reports := reports_for instance ctx (submitted fields attrs) in
  ((call fields instance ctx attrs w).1 = Ok tt
   /\ task_queue (call fields instance ctx attrs w).2 = task_queue w)
  \/ ((call fields instance ctx attrs w).1
        = invalid "The text entered has been flagged as spam."
      /\ task_queue (call fields instance ctx attrs w).2
         = (task_queue w ++ [object_serialize "json" reports])%list
      /\ switch_is_active "akismet-collection-action" = true
      /\ existsb is_spam reports = true
      /\ submitted fields attrs ≠ ∅).
Proof.
  cbv zeta. unfold call.
  destruct (decide (submitted fields attrs = ∅)) as [He | Hne];
    [left; split; reflexivity|].
  unfold bind.
  set (reports := reports_for instance ctx (submitted fields attrs)) in *.
  destruct (any_comment_check_spec reports w) as [Hres Hq].
  destruct (any_comment_check reports w) as [res w'] eqn:Hany. simpl in *.
  subst res.
  destruct (existsb is_spam reports) eqn:Hf; simpl;
    [|left; split; [reflexivity | exact Hq]].
  destruct (switch_is_active "akismet-collection-action") eqn:Hg; simpl.
  - right. rewrite Hq. repeat split; assumption.
  - left. split; [reflexivity | exact Hq].
Qed.
End SpamValidatorMore.

Lemma call_ignores_other_fields_witness :
  let S := sample_spam_service true in
  let w := {| CollectionAkismetSpamValidator.task_queue := [];
              CollectionAkismetSpamValidator.comment_checks := [] |} in
  CollectionAkismetSpamValidator.call (H := S) ["name"; "description"] None
    sample_context slug_attrs w = (Ok tt, w).
Proof.
  intros S w.
  refine (call_ignores_other_fields (H := S) ["name"; "description"] None
            sample_context slug_attrs w _).
  intros k Hk. rewrite !elem_of_cons, elem_of_nil in Hk.
  destruct Hk as [-> | [-> | []]]; reflexivity.
Defined.

Lemma call_nothing_flagged_witness :
  let S := sample_spam_service true in
  let w := {| CollectionAkismetSpamValidator.task_queue := [];
              CollectionAkismetSpamValidator.comment_checks := [] |} in
  (CollectionAkismetSpamValidator.call (H := S) ["name"; "description"] None
     sample_context sound_attrs w).1 = Ok tt
  /\ CollectionAkismetSpamValidator.task_queue
       (CollectionAkismetSpamValidator.call (H := S) ["name"; "description"]
          None sample_context sound_attrs w).2 = []
  /\ CollectionAkismetSpamValidator.comment_checks
       (CollectionAkismetSpamValidator.call (H := S) ["name"; "description"]
          None sample_context sound_attrs w).2 = ["My add-ons"].
Proof.
  intros S w.
  refine (call_nothing_flagged (H := S) ["name"; "description"] None
            sample_context sound_attrs w _ _).
  - intros He. apply (f_equal (fun m => m !! "name")) in He.
    vm_compute in He. discriminate.
  - reflexivity.
Defined.

Lemma call_stops_at_first_flagged_witness :
  let S := sample_spam_service false in
  let w := {| CollectionAkismetSpamValidator.task_queue := [];
              CollectionAkismetSpamValidator.comment_checks := [] |} in
  CollectionAkismetSpamValidator.comment_checks
    (CollectionAkismetSpamValidator.call (H := S) ["name"; "description"]
       None sample_context mixed_attrs w).2 = ["buy pills"].
Proof.
  intros S w.
  refine (call_stops_at_first_flagged (H := S) ["name"; "description"] None
            sample_context mixed_attrs w [] ["A fine list"] "buy pills"
            _ _ _ _).
  - intros He. apply (f_equal (fun m => m !! "name")) in He.
    vm_compute in He. discriminate.
  - vm_compute. reflexivity.
  - constructor.
  - reflexivity.
Defined.

Lemma call_reads_configured_fields_witness :
  let S := sample_spam_service true in
  let w := {| CollectionAkismetSpamValidator.task_queue := [];
              CollectionAkismetSpamValidator.comment_checks := [] |} in
  CollectionAkismetSpamValidator.call (H := S) ["name"; "description"] None
    sample_context (<["slug" := VText (Text "faves")]> spam_attrs) w
  = CollectionAkismetSpamValidator.call (H := S) ["name"; "description"] None
      sample_context spam_attrs w.
Proof.
  intros S w.
  refine (call_reads_configured_fields (H := S) ["name"; "description"] None
            sample_context _ spam_attrs w _).
  intros k Hk. rewrite !elem_of_cons, elem_of_nil in Hk.
  destruct Hk as [-> | [-> | []]]; reflexivity.
Defined.

(** ** validate_name on nested mappings *)

Section NameMore.
Context `{Denylist}.
Import CollectionSerializer.

(** X6: an accepted name, flat or a mapping of any depth, is returned
    exactly as it was given, so validating the result again accepts it. *)
Theorem validate_name_fixpoint (value r : trans) :
  validate_name value = Ok r -> r = value /\ validate_name r = Ok r.
Proof.
  intros Hok. pose proof (validate_name_unchanged value r Hok) as ->.
  split; [reflexivity | exact Hok].
Qed.

(** X8: in a mapping, the entries are validated in order and the first one
    that fails decides the error; the entries after it are not looked
    at. *)
Theorem validate_name_first_failure (pre post : list (string * trans))
    (locale : string) (sub_value : trans) (e : exn) :
  Forall (fun kv => exists r, validate_name kv.2 = Ok r) pre ->
  validate_name sub_value = Raise e ->
  validate_name (Locales (pre ++ (locale, sub_value) :: post)) = Raise e.
Proof.
  intros Hpre Hf. rewrite validate_name_locales_cases.
  rewrite (dict_comprehension_first_failure validate_name pre post locale
             sub_value e Hpre Hf).
  reflexivity.
Qed.

(** X9: a name is accepted exactly when every text in it, at any depth, is
    neither blank nor denylisted; a mapping without entries is therefore
    accepted. *)
Theorem validate_name_accepts (value : trans) :
  (exists r, validate_name value = Ok r)
  <-> Forall (fun s => all_chars isspace s = false /\ blocked s = false)
        (texts value).
Proof.
  rewrite <- validate_name_sound. split.
  - intros (r & Hr). rewrite (validate_name_unchanged value r Hr) in Hr.
    exact Hr.
  - intros Hok. exists value. exact Hok.
Qed.
End NameMore.

Lemma validate_name_fixpoint_witness :
  let v := Locales [("en-US", Text "My add-ons");
                    ("fr", Locales [("CA", Text "Mes modules")])] in
  exists r, @CollectionSerializer.validate_name sample_denylist v = Ok r
            /\ r = v
            /\ @CollectionSerializer.validate_name sample_denylist r = Ok r.
Proof.
  intros v. exists v. split; [reflexivity|].
  refine (@validate_name_fixpoint sample_denylist v v _). reflexivity.
Defined.

Lemma validate_name_first_failure_witness :
  @CollectionSerializer.validate_name sample_denylist
    (Locales [("en-US", Text "My add-ons"); ("fr", Text "admin");
              ("de", Text " ")])
  = invalid "This name cannot be used.".
Proof.
  refine (@validate_name_first_failure sample_denylist
            [("en-US", Text "My add-ons")] [("de", Text " ")] "fr"
            (Text "admin") _ _ _).
  - constructor; [|constructor]. exists (Text "My add-ons"). reflexivity.
  - reflexivity.
Defined.

(** ** What to_representation and get_addons emit *)

Section RepresentationMore.
Context `{ApiGates} `{Rendering}.

Lemma base_representation (instance : row) :
  ModelSerializer.to_representation CollectionAddonSerializer.declared instance
  = <["notes" := field_to_representation CollectionAddonSerializer.notes instance]>
      (<["addon" := field_to_representation CollectionAddonSerializer.addon instance]> ∅).
Proof. reflexivity. Qed.

(** The context decides for every instance alike whether [downloads] is
    added. *)
Lemma to_representation_shim (ctx : context) :
  (forall instance,
     CollectionAddonSerializer.to_representation ctx instance
     = <["downloads" := VInt 0]>
         (ModelSerializer.to_representation
            CollectionAddonSerializer.declared instance))
  \/ (forall instance,
        CollectionAddonSerializer.to_representation ctx instance
        = ModelSerializer.to_representation
            CollectionAddonSerializer.declared instance).
Proof.
  unfold CollectionAddonSerializer.to_representation.
  destruct (ctx_request ctx) as [r|]; [|right; reflexivity].
  destruct (is_gate_active r "collections-downloads-shim");
    [left | right]; reflexivity.
Qed.

(** X10: the output of [to_representation] always has [addon] and [notes],
    as their fields render them; it never has the hidden [collection], and
    it has no key other than [addon], [notes] and [downloads]. *)
Theorem to_representation_keys (ctx : context) (instance : row) :
  let out := CollectionAddonSerializer.to_representation ctx instance in
  out !! "addon"
    = Some (field_to_representation CollectionAddonSerializer.addon instance)
  /\ out !! "notes"
    = Some (field_to_representation CollectionAddonSerializer.notes instance)
  /\ out !! "collection" = None
  /\ (forall k, k ∉ ["addon"; "notes"; "downloads"] -> out !! k = None).
Proof.
  cbv zeta.
  destruct (to_representation_shim ctx) as [Hs | Hs]; rewrite Hs;
    rewrite base_representation.
  - split; [|split; [|split]].
    + rewrite lookup_insert_ne, lookup_insert_ne, lookup_insert_eq by discriminate.
      reflexivity.
    + rewrite lookup_insert_ne, lookup_insert_eq by discriminate. reflexivity.
    + rewrite !lookup_insert_ne by discriminate. apply lookup_empty.
    + intros k Hk. rewrite !not_elem_of_cons in Hk.
      destruct Hk as (Ha & Hn & Hd & _).
      rewrite !lookup_insert_ne by congruence. apply lookup_empty.
  - split; [|split; [|split]].
    + rewrite lookup_insert_ne, lookup_insert_eq by discriminate. reflexivity.
    + rewrite lookup_insert_eq. reflexivity.
    + rewrite !lookup_insert_ne by discriminate. apply lookup_empty.
    + intros k Hk. rewrite !not_elem_of_cons in Hk.
      destruct Hk as (Ha & Hn & Hd & _).
      rewrite !lookup_insert_ne by congruence. apply lookup_empty.
Qed.

(** X11: [get_addons] renders one item per row of the queryset, in the
    order of the queryset, and the legacy [downloads] entry is on every
    item or on none of them. *)
Theorem get_addons_uniform (ctx : context) (addons_qs : list row) :
  let items := CollectionWithAddonsSerializer.get_addons ctx addons_qs in
  length items = length addons_qs
  /\ (forall i r, addons_qs !! i = Some r ->
        items !! i
        = Some (CollectionAddonSerializer.to_representation ctx r))
  /\ (Forall (fun out => out !! "downloads" = Some (VInt 0)) items
      \/ Forall (fun out => out !! "downloads" = None) items).
Proof.
  cbv zeta. unfold CollectionWithAddonsSerializer.get_addons.
  split; [apply length_map|]. split.
  - intros i r Hi.
    change (map (CollectionAddonSerializer.to_representation ctx) addons_qs)
      with (CollectionAddonSerializer.to_representation ctx <$> addons_qs).
    rewrite list_lookup_fmap, Hi. reflexivity.
  - destruct (to_representation_shim ctx) as [Hs | Hs]; [left | right];
      apply List.Forall_map, Forall_forall; intros r _; rewrite Hs.
    + apply lookup_insert_eq.
    + apply to_representation_declared. simpl.
      rewrite !not_elem_of_cons. repeat split; try discriminate.
      apply not_elem_of_nil.
Qed.
End RepresentationMore.

(** ** Writable and read-only fields *)

Lemma difference_partition (fields writeable : list string) :
  (forall x, x ∈ writeable -> x ∈ fields) ->
  let t := elements ((list_to_set fields : gset string) ∖ list_to_set writeable) in
  (forall x, x ∈ fields <-> x ∈ writeable \/ x ∈ t)
  /\ (forall x, ~ (x ∈ writeable /\ x ∈ t)).
Proof.
  intros Hsub. cbv zeta.
  destruct (set_difference_tuple fields writeable) as [_ Ht]. cbv zeta in Ht.
  split; intros x; rewrite Ht.
  - destruct (decide (x ∈ writeable)) as [Hw | Hw]; [|tauto].
    split; [tauto|]. intros _. apply Hsub. exact Hw.
  - tauto.
Qed.

(** X12: in each of the three serializers every writable field is a
    declared field, and the declared fields split into the writable and the
    read-only ones: each declared field is in one of the two tuples and no
    field is in both. *)
Theorem fields_partition :
  ((forall x, x ∈ CollectionSerializer.Meta.fields
      <-> x ∈ CollectionSerializer.Meta.writeable_fields
          \/ x ∈ CollectionSerializer.Meta.read_only_fields)
   /\ (forall x, ~ (x ∈ CollectionSerializer.Meta.writeable_fields
                    /\ x ∈ CollectionSerializer.Meta.read_only_fields)))
  /\ ((forall x, x ∈ CollectionAddonSerializer.Meta.fields
      <-> x ∈ CollectionAddonSerializer.Meta.writeable_fields
          \/ x ∈ CollectionAddonSerializer.Meta.read_only_fields)
   /\ (forall x, ~ (x ∈ CollectionAddonSerializer.Meta.writeable_fields
                    /\ x ∈ CollectionAddonSerializer.Meta.read_only_fields)))
  /\ ((forall x, x ∈ CollectionWithAddonsSerializer.Meta.fields
      <-> x ∈ CollectionWithAddonsSerializer.Meta.writeable_fields
          \/ x ∈ CollectionWithAddonsSerializer.Meta.read_only_fields)
   /\ (forall x, ~ (x ∈ CollectionWithAddonsSerializer.Meta.writeable_fields
                    /\ x ∈ CollectionWithAddonsSerializer.Meta.read_only_fields))).
Proof.
  split; [|split].
  - apply (difference_partition CollectionSerializer.Meta.fields
             CollectionSerializer.Meta.writeable_fields).
    intros x. unfold CollectionSerializer.Meta.writeable_fields,
      CollectionSerializer.Meta.fields.
    rewrite !elem_of_cons, !elem_of_nil. tauto.
  - apply (difference_partition CollectionAddonSerializer.Meta.fields
             CollectionAddonSerializer.Meta.writeable_fields).
    intros x. unfold CollectionAddonSerializer.Meta.writeable_fields,
      CollectionAddonSerializer.Meta.fields.
    rewrite !elem_of_cons, !elem_of_nil. tauto.
  - apply (difference_partition CollectionWithAddonsSerializer.Meta.fields
             CollectionSerializer.Meta.writeable_fields).
    intros x. unfold CollectionSerializer.Meta.writeable_fields,
      CollectionWithAddonsSerializer.Meta.fields,
      CollectionSerializer.Meta.fields.
    rewrite elem_of_app, !elem_of_cons, !elem_of_nil. tauto.
Qed.

(** X13: the Meta of [CollectionWithAddonsSerializer] adds [addons], and
    nothing else, to the read-only fields of [CollectionSerializer]; the
    writable fields are the same, so [addons] cannot be written. *)
Theorem with_addons_read_only :
  (forall x, x ∈ CollectionWithAddonsSerializer.Meta.read_only_fields
     <-> x ∈ CollectionSerializer.Meta.read_only_fields \/ x = "addons")
  /\ ("addons" ∉ CollectionWithAddonsSerializer.Meta.writeable_fields)
  /\ (forall x, x ∈ CollectionWithAddonsSerializer.Meta.writeable_fields
        <-> x ∈ CollectionSerializer.Meta.writeable_fields).
Proof.
  assert (Hnw : "addons" ∉ CollectionSerializer.Meta.writeable_fields).
  { unfold CollectionSerializer.Meta.writeable_fields.
    rewrite !not_elem_of_cons. repeat split; try discriminate.
    apply not_elem_of_nil. }
  split; [|split; [exact Hnw | reflexivity]].
  intros x.
  destruct (set_difference_tuple CollectionWithAddonsSerializer.Meta.fields
              CollectionSerializer.Meta.writeable_fields) as [_ Hw].
  destruct (set_difference_tuple CollectionSerializer.Meta.fields
              CollectionSerializer.Meta.writeable_fields) as [_ Hc].
  cbv zeta in Hw, Hc.
  unfold CollectionWithAddonsSerializer.Meta.read_only_fields,
    CollectionSerializer.Meta.read_only_fields.
  rewrite Hw, Hc. unfold CollectionWithAddonsSerializer.Meta.fields.
  rewrite elem_of_app, list_elem_of_singleton.
  split.
  - intros [[Hf | ->] Hn]; [left; split; assumption | right; reflexivity].
  - intros [[Hf Hn] | ->]; [split; [left|]; assumption|].
    split; [right; reflexivity | exact Hnw].
Qed.

(** ** Pairs that are not taken *)

Lemma trans_eqb_eq (a b : trans) : trans_eqb a b = true -> a = b.
Proof.
  revert b. induction a as [s | d IH] using trans_nested_ind; intros b.
  - destruct b as [t | e]; simpl; [|discriminate].
    intros Heq. apply String.eqb_eq in Heq. congruence.
  - destruct b as [t | e]; simpl; [discriminate|].
    revert e. induction IH as [|[k v] l Hv _ IHl]; intros [|[k' v'] e];
      try discriminate; [reflexivity|].
    intros Heq. apply andb_true_iff in Heq as [Heq Hrest].
    apply andb_true_iff in Heq as [Hk Hval].
    apply String.eqb_eq in Hk. apply Hv in Hval. simpl in Hval.
    specialize (IHl e Hrest). congruence.
Qed.

Lemma value_eqb_eq (a b : value) : value_eqb a b = true -> a = b.
Proof.
  destruct a, b; simpl; try discriminate; try reflexivity; intros Heq.
  - apply Bool.eqb_prop in Heq. congruence.
  - apply Z.eqb_eq in Heq. congruence.
  - apply Z.eqb_eq in Heq. congruence.
  - apply trans_eqb_eq in Heq. congruence.
Qed.

Section UniqueTogetherFree.
Import UniqueTogetherValidator.

Variables (v : t) (db : database) (instance : option row)
          (attrs : gmap string value).
Hypothesis Hgiven : forall f, f ∈ fields v -> is_Some (attrs !! f).
Hypothesis Hfree : forall r, r ∈ db (queryset v) ->
  (forall i, instance = Some i -> pk r ≠ pk i) ->
  exists f, f ∈ fields v /\ attrs !! f ≠ Some (getattr r f).

Lemma enforce_required_fields_present :
  enforce_required_fields v instance attrs = Ok tt.
Proof.
  unfold enforce_required_fields. destruct instance; [reflexivity|].
  destruct (filter (fun f => attrs !! f = None) (fields v))
    as [|f l] eqn:Hfl; [reflexivity|].
  assert (Hf : f ∈ filter (fun f => attrs !! f = None) (fields v))
    by (rewrite Hfl; left).
  apply list_elem_of_filter in Hf as [Hnone Hf].
  destruct (Hgiven f Hf) as (x & Hx). congruence.
Qed.

Lemma fill_from_instance_present :
  fill_from_instance v instance attrs = attrs.
Proof.
  unfold fill_from_instance. destruct instance; [|reflexivity].
  clear Hfree.
  induction (fields v) as [|f fs IH]; [reflexivity|]. simpl.
  rewrite IH by (intros g Hg; apply Hgiven; right; exact Hg).
  destruct (Hgiven f) as (x & ->); [left|]. reflexivity.
Qed.

Lemma no_row_left :
  exclude_current_instance instance
    (filter_queryset v attrs (db (queryset v))) = [].
Proof.
  destruct (exclude_current_instance instance
              (filter_queryset v attrs (db (queryset v))))
    as [|r rows] eqn:Hrows; [reflexivity|]. exfalso.
  assert (Hin : r ∈ exclude_current_instance instance
                      (filter_queryset v attrs (db (queryset v))))
    by (rewrite Hrows; left).
  assert (Hr : r ∈ filter_queryset v attrs (db (queryset v))
               /\ forall i, instance = Some i -> pk r ≠ pk i).
  { unfold exclude_current_instance in Hin. destruct instance as [i|].
    - apply list_elem_of_filter in Hin as [Hpk Hin].
      split; [exact Hin|]. intros i' [= <-]. exact Hpk.
    - split; [exact Hin|]. intros i' Hi'. discriminate. }
  destruct Hr as [Hmatch Hother].
  unfold filter_queryset in Hmatch.
  apply list_elem_of_filter in Hmatch as [Hall Hstored].
  destruct (Hfree r Hstored Hother) as (f & Hf & Hdiff).
  rewrite forallb_forall in Hall.
  specialize (Hall f (proj1 (list_elem_of_In _ _) Hf)).
  apply value_eqb_eq in Hall.
  destruct (Hgiven f Hf) as (x & Hx). rewrite Hx in Hall, Hdiff.
  simpl in Hall. congruence.
Qed.

(** With its fields given, the validator passes when no stored row other
    than the instance under update has the candidate's values on all of
    them. *)
Lemma unique_together_free :
  call v db instance attrs = Ok tt.
Proof.
  unfold call.
  rewrite enforce_required_fields_present, fill_from_instance_present.
  rewrite no_row_left. simpl. rewrite andb_false_r. reflexivity.
Qed.
End UniqueTogetherFree.

(** X14: a candidate that gives its slug and author, or its addon and
    collection, passes the declared unique-together validator when every
    stored row other than the one being updated differs from it on one of
    the two; the same slug under another author is thus accepted. *)
Theorem unique_together_accepts_free_pairs (db : database)
    (instance : option row) (attrs : gmap string value) :
  ((forall f, f ∈ ["slug"; "author"] -> is_Some (attrs !! f)) ->
   (forall r, r ∈ db Collection ->
      (forall i, instance = Some i -> pk r ≠ pk i) ->
      attrs !! "slug" ≠ Some (getattr r "slug")
      \/ attrs !! "author" ≠ Some (getattr r "author")) ->
   UniqueTogetherValidator.call CollectionSerializer.Meta.unique_together
     db instance attrs = Ok tt)
  /\ ((forall f, f ∈ ["addon"; "collection"] -> is_Some (attrs !! f)) ->
      (forall r, r ∈ db CollectionAddon ->
         (forall i, instance = Some i -> pk r ≠ pk i) ->
         attrs !! "addon" ≠ Some (getattr r "addon")
         \/ attrs !! "collection" ≠ Some (getattr r "collection")) ->
      UniqueTogetherValidator.call
        CollectionAddonSerializer.Meta.unique_together db instance attrs
      = Ok tt).
Proof.
  split; intros Hgiven Hfree; apply unique_together_free;
    try exact Hgiven; intros r Hr Hother;
    destruct (Hfree r Hr Hother) as [Hd | Hd].
  - exists "slug". split; [left | exact Hd].
  - exists "author". split; [right; left | exact Hd].
  - exists "addon". split; [left | exact Hd].
  - exists "collection". split; [right; left | exact Hd].
Qed.

Lemma unique_together_accepts_free_pairs_witness :
  UniqueTogetherValidator.call CollectionSerializer.Meta.unique_together
    sample_db None {[ "slug" := VText (Text "faves"); "author" := VObj 6 ]}
  = Ok tt.
Proof.
  refine (proj1 (unique_together_accepts_free_pairs sample_db None
                   {[ "slug" := VText (Text "faves"); "author" := VObj 6 ]})
            _ _).
  - intros f Hf. rewrite !elem_of_cons, elem_of_nil in Hf.
    destruct Hf as [-> | [-> | []]]; vm_compute; eauto.
  - intros r Hr _. apply list_elem_of_singleton in Hr as ->.
    right. vm_compute. discriminate.
Defined.

(** ** Updates through CollectionAddonSerializer.validate *)

(** X15: an update with the validated data, partial or not, keeps the
    primary key and every attribute that was not submitted; a full update
    writes a submitted [addon], which a partial update never does. *)
Theorem update_after_validate (partial : bool) (data : gmap string value)
    (instance : row) :
  let updated :=
    ModelSerializer.update instance
      (CollectionAddonSerializer.validate partial data) in
  pk updated = pk instance
  /\ (forall k, data !! k = None -> getattr updated k = getattr instance k)
  /\ (forall x, data !! "addon" = Some x ->
        getattr updated "addon"
        = if partial then getattr instance "addon" else x).
Proof.
  cbv zeta. unfold CollectionAddonSerializer.validate, ModelSerializer.validate.
  split; [reflexivity|]. split.
  - intros k Hk. rewrite getattr_update.
    destruct partial; [|rewrite Hk; reflexivity].
    destruct (decide (k = "addon")) as [-> | Hne].
    + rewrite lookup_delete_eq. reflexivity.
    + rewrite lookup_delete_ne, Hk by congruence. reflexivity.
  - intros x Hx. rewrite getattr_update. destruct partial.
    + rewrite lookup_delete_eq. reflexivity.
    + rewrite Hx. reflexivity.
Qed.

(** ** Partial updates that pass the validators *)


